(** * webpack.config.js: a shallow embedding of the build configuration

    The repository is one CommonJS module, [webpack.config.js].  Loading it
    reads [process.env.NODE_ENV], derives the two flags [isDev] / [isProd],
    and evaluates an object literal that is handed to webpack.  On the way
    it calls six small helpers ([optimization], [filename], [cssLoaders],
    [babelOptions], [jsLoaders], [plugins]); all but [filename] build an array
    or an object and then mutate it in place ([push], property assignment).

    JavaScript arrays and objects are references to mutable cells, so the
    helpers are embedded in a small state-and-error monad over a heap of
    cells.  What webpack finally receives is read back from the heap as a
    finite tree ([reify]); the statements below are about that tree. *)

From Stdlib Require Import String Ascii ZArith Bool Arith Lia List.
Import ListNotations.
Open Scope string_scope.
Open Scope list_scope.
Set Warnings "-register-all".

(** ** Values and heap cells *)

Definition loc := nat.

(** The JavaScript values that occur in the module.  [VExtern] stands for a
    value taken from an imported package (here only
    [MiniCssExtractPlugin.loader]); [VRegExp] keeps the source text of a
    regular-expression literal. *)
Inductive val : Type :=
| VUndefined
| VBool (b : bool)
| VNum (n : Z)
| VStr (s : string)
| VRegExp (src : string)
| VExtern (name : string)
| VRef (l : loc).

(** A heap cell: an array, a plain object (its properties in insertion
    order), or the result of [new Ctor(args)] for an imported class. *)
Inductive cell : Type :=
| CArray (items : list val)
| CObject (props : list (string * val))
| CInstance (ctor : string) (args : list val).

Definition heap := list cell.

(** [if (v)]: JavaScript truthiness. *)
Definition truthy (v : val) : bool :=
  match v with
  | VUndefined => false
  | VBool b => b
  | VNum n => negb (Z.eqb n 0)
  | VStr s => negb (String.eqb s "")
  | VRegExp _ | VExtern _ | VRef _ => true
  end.

(** [a === b]. *)
Definition strict_eq (a b : val) : bool :=
  match a, b with
  | VUndefined, VUndefined => true
  | VBool x, VBool y => Bool.eqb x y
  | VNum x, VNum y => Z.eqb x y
  | VStr x, VStr y => String.eqb x y
  | VRef x, VRef y => Nat.eqb x y
  | _, _ => false
  end.

(** [s.includes(needle)]. *)
Fixpoint includes (needle hay : string) : bool :=
  String.prefix needle hay
  || match hay with
     | EmptyString => false
     | String _ rest => includes needle rest
     end.

(** ** The state-and-error monad *)

Definition M (A : Type) : Type := heap -> option (A * heap).

Definition ret {A} (a : A) : M A := fun h => Some (a, h).

Definition bind {A B} (m : M A) (k : A -> M B) : M B :=
  fun h => match m h with
           | Some (a, h') => k a h'
           | None => None
           end.

(** A [TypeError]. *)
Definition throw {A} : M A := fun _ => None.

Declare Scope js_scope.
Delimit Scope js_scope with js.
Notation "x <- m ;; k" := (bind m (fun x => k))
  (at level 100, m at next level, right associativity) : js_scope.
Notation "m ;;; k" := (bind m (fun _ => k))
  (at level 100, right associativity) : js_scope.
Open Scope js_scope.

Fixpoint update {A} (l : list A) (i : nat) (x : A) : list A :=
  match l, i with
  | [], _ => []
  | _ :: t, O => x :: t
  | y :: t, S j => y :: update t j x
  end.

(** Array literals, object literals and [new] allocate a fresh cell. *)
Definition alloc (c : cell) : M val :=
  fun h => Some (VRef (length h), h ++ [c]).

Definition new_array (items : list val) : M val := alloc (CArray items).
Definition new_object (props : list (string * val)) : M val :=
  alloc (CObject props).
Definition new_instance (ctor : string) (args : list val) : M val :=
  alloc (CInstance ctor args).

Definition read (v : val) : M cell :=
  fun h => match v with
           | VRef l => match nth_error h l with
                       | Some c => Some (c, h)
                       | None => None
                       end
           | _ => None
           end.

Definition write (v : val) (c : cell) : M unit :=
  fun h => match v with
           | VRef l => Some (tt, update h l c)
           | _ => None
           end.

Fixpoint lookup_prop {A} (k : string) (props : list (string * A)) : option A :=
  match props with
  | [] => None
  | (k', v) :: rest => if String.eqb k k' then Some v else lookup_prop k rest
  end.

Fixpoint assign_prop {A} (k : string) (v : A) (props : list (string * A))
  : list (string * A) :=
  match props with
  | [] => [(k, v)]
  | (k', v') :: rest =>
      if String.eqb k k' then (k, v) :: rest
      else (k', v') :: assign_prop k v rest
  end.

(** [o.k] on a plain object; a missing property reads as [undefined]. *)
Definition get_prop (o : val) (k : string) : M val :=
  c <- read o ;;
  match c with
  | CObject props =>
      ret (match lookup_prop k props with Some v => v | None => VUndefined end)
  | _ => throw
  end.

(** [o.k = v] on a plain object. *)
Definition set_prop (o : val) (k : string) (v : val) : M unit :=
  c <- read o ;;
  match c with
  | CObject props => write o (CObject (assign_prop k v props))
  | _ => throw
  end.

(** [a.push(v)]. *)
Definition array_push (a : val) (v : val) : M unit :=
  c <- read a ;;
  match c with
  | CArray items => write a (CArray (items ++ [v]))
  | _ => throw
  end.

(** ** Reading a value back from the heap *)

Inductive tree : Type :=
| TUndefined
| TBool (b : bool)
| TNum (n : Z)
| TStr (s : string)
| TRegExp (src : string)
| TExtern (name : string)
| TArray (items : list tree)
| TObject (props : list (string * tree))
| TNew (ctor : string) (args : list tree).

Fixpoint mapM {A B} (f : A -> option B) (l : list A) : option (list B) :=
  match l with
  | [] => Some []
  | x :: t =>
      match f x, mapM f t with
      | Some y, Some ys => Some (y :: ys)
      | _, _ => None
      end
  end.

Definition on_snd {K A B} (f : A -> option B) (p : K * A) : option (K * B) :=
  match f (snd p) with
  | Some y => Some (fst p, y)
  | None => None
  end.

(** [reify fuel h v] follows at most [fuel] nested references. *)
Fixpoint reify (fuel : nat) (h : heap) (v : val) : option tree :=
  match v with
  | VUndefined => Some TUndefined
  | VBool b => Some (TBool b)
  | VNum n => Some (TNum n)
  | VStr s => Some (TStr s)
  | VRegExp s => Some (TRegExp s)
  | VExtern s => Some (TExtern s)
  | VRef l =>
      match fuel with
      | O => None
      | S fuel' =>
          match nth_error h l with
          | None => None
          | Some (CArray items) =>
              option_map TArray (mapM (reify fuel' h) items)
          | Some (CObject props) =>
              option_map TObject (mapM (on_snd (reify fuel' h)) props)
          | Some (CInstance ctor args) =>
              option_map (TNew ctor) (mapM (reify fuel' h) args)
          end
      end
  end.

(** Run a computation from heap [h] and read its result back.  A chain of
    references in an acyclic heap is no longer than the heap, so the size
    of the final heap is fuel enough. *)
Definition observe (m : M val) (h : heap) : option tree :=
  match m h with
  | Some (v, h') => reify (length h') h' v
  | None => None
  end.

(** Accessors on trees, for stating what a configuration contains. *)
Definition field (k : string) (t : tree) : option tree :=
  match t with
  | TObject props => lookup_prop k props
  | _ => None
  end.

Definition has_field (k : string) (t : tree) : bool :=
  match field k t with Some _ => true | None => false end.

Definition is_array (t : tree) : bool :=
  match t with TArray _ => true | _ => false end.

Definition is_string (t : tree) : bool :=
  match t with TStr _ => true | _ => false end.

Definition ctor_of (t : tree) : option string :=
  match t with
  | TNew c _ => Some c
  | _ => None
  end.

Definition is_source_list (t : tree) : bool :=
  match t with
  | TArray items => forallb is_string items
  | _ => false
  end.

(** One step into a tree: a property of an object, an element of an
    array, or a constructor argument of an instance. *)
Inductive step : Type :=
| Key (k : string)
| Idx (i : nat)
| Arg (i : nat).

Definition enter (s : step) (t : tree) : option tree :=
  match s, t with
  | Key k, TObject props => lookup_prop k props
  | Idx i, TArray items => nth_error items i
  | Arg i, TNew _ args => nth_error args i
  | _, _ => None
  end.

Fixpoint select (p : list step) (t : tree) : option tree :=
  match p with
  | [] => Some t
  | s :: rest =>
      match enter s t with
      | Some t' => select rest t'
      | None => None
      end
  end.

(** ** The module *)

Section WebpackConfig.

(** [process.env.NODE_ENV]: a string, or unset. *)
Variable NODE_ENV : option string.

(** [__dirname] and Node's [path.resolve], which the module only calls. *)
Variable dirname : string.
Variable path_resolve : string -> string -> string.

Definition process_env_NODE_ENV : val :=
  match NODE_ENV with
  | Some s => VStr s
  | None => VUndefined
  end.

Definition isDev : bool := strict_eq process_env_NODE_ENV (VStr "development").

Definition isProd : bool := negb isDev.

Definition optimization : M val :=
  splitChunks <- new_object [("chunks", VStr "all")] ;;
  config <- new_object [("splitChunks", splitChunks)] ;;
  (if isProd then
     css <- new_instance "OptimizeCssAssetWebpackPlugin" [] ;;
     terser <- new_instance "TerserWebpackPlugin" [] ;;
     minimizer <- new_array [css; terser] ;;
     set_prop config "minimizer" minimizer
   else ret tt) ;;;
  ret config.

(** The template literal; every call in the module passes a string. *)
Definition filename (ext : string) : string :=
  (if isDev then "[name]." ++ ext else "[name].[hash]." ++ ext)%string.

Definition cssLoaders (extra : val) : M val :=
  options <- new_object [("hmr", VBool isDev); ("reloadAll", VBool true)] ;;
  extract <- new_object [("loader", VExtern "MiniCssExtractPlugin.loader");
                         ("options", options)] ;;
  loaders <- new_array [extract; VStr "css-loader"] ;;
  (if truthy extra then array_push loaders extra else ret tt) ;;;
  ret loaders.

Definition babelOptions (preset : val) : M val :=
  presets <- new_array [VStr "@babel/preset-env"] ;;
  plugins <- new_array [VStr "@babel/plugin-proposal-class-properties"] ;;
  opts <- new_object [("presets", presets); ("plugins", plugins)] ;;
  (if truthy preset then
     p <- get_prop opts "presets" ;;
     array_push p preset
   else ret tt) ;;;
  ret opts.

Definition jsLoaders : M val :=
  options <- babelOptions VUndefined ;;
  babel <- new_object [("loader", VStr "babel-loader"); ("options", options)] ;;
  loaders <- new_array [babel] ;;
  (if isDev then array_push loaders (VStr "eslint-loader") else ret tt) ;;;
  ret loaders.

Definition plugins : M val :=
  minify <- new_object [("collapseWhitespace", VBool isProd)] ;;
  htmlOptions <- new_object [("template", VStr "./index.html");
                             ("minify", minify)] ;;
  html <- new_instance "HTMLWebpackPlugin" [htmlOptions] ;;
  clean <- new_instance "CleanWebpackPlugin" [] ;;
  pattern <- new_object
               [("from", VStr (path_resolve dirname "src/favicon.ico"));
                ("to", VStr (path_resolve dirname "dist"))] ;;
  patterns <- new_array [pattern] ;;
  copy <- new_instance "CopyWebpackPlugin" [patterns] ;;
  cssOptions <- new_object [("filename", VStr (filename "css"))] ;;
  extract <- new_instance "MiniCssExtractPlugin" [cssOptions] ;;
  base <- new_array [html; clean; copy; extract] ;;
  (if isProd then
     analyzer <- new_instance "BundleAnalyzerPlugin" [] ;;
     array_push base analyzer
   else ret tt) ;;;
  ret base.

(** [module.exports = { ... }].  The properties are evaluated in source
    order; inside a literal the nested literals are allocated first, which
    only changes the numbering of the cells. *)
Definition module_exports : M val :=
  main <- new_array [VStr "@babel/polyfill"; VStr "./index.jsx"] ;;
  entry <- new_object [("main", main); ("analytics", VStr "./analytics.ts")] ;;
  output <- new_object [("filename", VStr (filename "js"));
                        ("path", VStr (path_resolve dirname "dist"))] ;;
  extensions <- new_array [VStr ".js"; VStr ".json"; VStr ".png"] ;;
  alias <- new_object
             [("@models", VStr (path_resolve dirname "src/models"));
              ("@", VStr (path_resolve dirname "src"))] ;;
  resolve <- new_object [("extensions", extensions); ("alias", alias)] ;;
  optimization_ <- optimization ;;
  devServer <- new_object [("port", VNum 4200); ("hot", VBool isDev)] ;;
  plugins_ <- plugins ;;
  use_css <- cssLoaders VUndefined ;;
  rule_css <- new_object [("test", VRegExp "\.css$"); ("use", use_css)] ;;
  use_less <- cssLoaders (VStr "less-loader") ;;
  rule_less <- new_object [("test", VRegExp "\.less$"); ("use", use_less)] ;;
  use_sass <- cssLoaders (VStr "sass-loader") ;;
  rule_sass <- new_object [("test", VRegExp "\.s[ac]ss$");
                           ("use", use_sass)] ;;
  use_img <- new_array [VStr "file-loader"] ;;
  rule_img <- new_object [("test", VRegExp "\.(png|jpg|svg|gif)$");
                          ("use", use_img)] ;;
  use_font <- new_array [VStr "file-loader"] ;;
  rule_font <- new_object [("test", VRegExp "\.(ttf|woff|woff2|eot)$");
                           ("use", use_font)] ;;
  use_xml <- new_array [VStr "xml-loader"] ;;
  rule_xml <- new_object [("test", VRegExp "\.xml$"); ("use", use_xml)] ;;
  use_csv <- new_array [VStr "csv-loader"] ;;
  rule_csv <- new_object [("test", VRegExp "\.csv$"); ("use", use_csv)] ;;
  use_js <- jsLoaders ;;
  rule_js <- new_object [("test", VRegExp "\.js$");
                         ("exclude", VRegExp "node_modules");
                         ("use", use_js)] ;;
  options_ts <- babelOptions (VStr "@babel/preset-typescript") ;;
  loader_ts <- new_object [("loader", VStr "babel-loader");
                           ("options", options_ts)] ;;
  rule_ts <- new_object [("test", VRegExp "\.ts$");
                         ("exclude", VRegExp "node_modules");
                         ("loader", loader_ts)] ;;
  options_jsx <- babelOptions (VStr "@babel/preset-react") ;;
  loader_jsx <- new_object [("loader", VStr "babel-loader");
                            ("options", options_jsx)] ;;
  rule_jsx <- new_object [("test", VRegExp "\.jsx$");
                          ("exclude", VRegExp "node_modules");
                          ("loader", loader_jsx)] ;;
  rules <- new_array [rule_css; rule_less; rule_sass; rule_img; rule_font;
                      rule_xml; rule_csv; rule_js; rule_ts; rule_jsx] ;;
  module_ <- new_object [("rules", rules)] ;;
  new_object
    [("context", VStr (path_resolve dirname "src"));
     ("mode", VStr "development");
     ("entry", entry);
     ("output", output);
     ("resolve", resolve);
     ("optimization", optimization_);
     ("devServer", devServer);
     ("devtool", VStr (if isDev then "source-map" else ""));
     ("plugins", plugins_);
     ("module", module_)].

End WebpackConfig.

(** ** Relocation: moving freshly built cells on top of an older heap *)

Definition shift (n : nat) (v : val) : val :=
  match v with
  | VRef l => VRef (n + l)
  | _ => v
  end.

Definition shift_prop (n : nat) (p : string * val) : string * val :=
  (fst p, shift n (snd p)).

Definition shift_cell (n : nat) (c : cell) : cell :=
  match c with
  | CArray items => CArray (map (shift n) items)
  | CObject props => CObject (map (shift_prop n) props)
  | CInstance ctor args => CInstance ctor (map (shift n) args)
  end.

Definition relocate (h : heap) (r : val * heap) : val * heap :=
  (shift (length h) (fst r), h ++ map (shift_cell (length h)) (snd r)).

(** A computation is relocatable when, started on any heap [h], it does
    what it does on the empty heap, shifted above [h]: it neither reads
    nor writes a cell that existed before it ran. *)
Definition relocatable (m : M val) : Prop :=
  forall h, m h = option_map (relocate h) (m []).

Definition is_primitive (v : val) : bool :=
  match v with
  | VRef _ => false
  | _ => true
  end.

(** The least informative environment with a given flag. *)
Definition canonical_env (dev : bool) : option string :=
  if dev then Some "development" else None.

(** ** The trees the helpers and the module evaluate to *)

Definition tree_of_primitive (v : val) : tree :=
  match v with
  | VUndefined | VRef _ => TUndefined
  | VBool b => TBool b
  | VNum n => TNum n
  | VStr s => TStr s
  | VRegExp s => TRegExp s
  | VExtern s => TExtern s
  end.

(** What an optional trailing argument adds to a list: itself when truthy. *)
Definition pushed (v : val) : list tree :=
  if truthy v then [tree_of_primitive v] else [].

Definition babel_options_tree (extra : list tree) : tree :=
  TObject [("presets", TArray (TStr "@babel/preset-env" :: extra));
           ("plugins",
            TArray [TStr "@babel/plugin-proposal-class-properties"])].

Definition babel_loader_tree (extra : list tree) : tree :=
  TObject [("loader", TStr "babel-loader");
           ("options", babel_options_tree extra)].

Definition css_loaders_tree (env : option string) (extra : val) : tree :=
  TArray ([TObject [("loader", TExtern "MiniCssExtractPlugin.loader");
                    ("options", TObject [("hmr", TBool (isDev env));
                                         ("reloadAll", TBool true)])];
           TStr "css-loader"] ++ pushed extra).

Definition js_loaders_tree (env : option string) : tree :=
  TArray (babel_loader_tree []
          :: if isDev env then [TStr "eslint-loader"] else []).

Definition minimizer_tree : tree :=
  TArray [TNew "OptimizeCssAssetWebpackPlugin" [];
          TNew "TerserWebpackPlugin" []].

Definition optimization_tree (env : option string) : tree :=
  TObject (("splitChunks", TObject [("chunks", TStr "all")])
           :: if isProd env then [("minimizer", minimizer_tree)] else []).

Section Trees.

Variable env : option string.
Variable dirname : string.
Variable path_resolve : string -> string -> string.

Definition base_plugins_tree : list tree :=
  [TNew "HTMLWebpackPlugin"
     [TObject [("template", TStr "./index.html");
               ("minify",
                TObject [("collapseWhitespace", TBool (isProd env))])]];
   TNew "CleanWebpackPlugin" [];
   TNew "CopyWebpackPlugin"
     [TArray
        [TObject [("from", TStr (path_resolve dirname "src/favicon.ico"));
                  ("to", TStr (path_resolve dirname "dist"))]]];
   TNew "MiniCssExtractPlugin"
     [TObject [("filename", TStr (filename env "css"))]]].

Definition plugins_tree : tree :=
  TArray (base_plugins_tree
          ++ if isProd env then [TNew "BundleAnalyzerPlugin" []] else []).

Definition use_rule_tree (test : string) (use : tree) : tree :=
  TObject [("test", TRegExp test); ("use", use)].

Definition babel_rule_tree (test : string) (preset : string) : tree :=
  TObject [("test", TRegExp test); ("exclude", TRegExp "node_modules");
           ("loader", babel_loader_tree [TStr preset])].

Definition rules_tree : tree :=
  TArray
    [use_rule_tree "\.css$" (css_loaders_tree env VUndefined);
     use_rule_tree "\.less$" (css_loaders_tree env (VStr "less-loader"));
     use_rule_tree "\.s[ac]ss$" (css_loaders_tree env (VStr "sass-loader"));
     use_rule_tree "\.(png|jpg|svg|gif)$" (TArray [TStr "file-loader"]);
     use_rule_tree "\.(ttf|woff|woff2|eot)$" (TArray [TStr "file-loader"]);
     use_rule_tree "\.xml$" (TArray [TStr "xml-loader"]);
     use_rule_tree "\.csv$" (TArray [TStr "csv-loader"]);
     TObject [("test", TRegExp "\.js$"); ("exclude", TRegExp "node_modules");
              ("use", js_loaders_tree env)];
     babel_rule_tree "\.ts$" "@babel/preset-typescript";
     babel_rule_tree "\.jsx$" "@babel/preset-react"].

Definition config_tree : tree :=
  TObject
    [("context", TStr (path_resolve dirname "src"));
     ("mode", TStr "development");
     ("entry",
      TObject [("main", TArray [TStr "@babel/polyfill"; TStr "./index.jsx"]);
               ("analytics", TStr "./analytics.ts")]);
     ("output",
      TObject [("filename", TStr (filename env "js"));
               ("path", TStr (path_resolve dirname "dist"))]);
     ("resolve",
      TObject [("extensions", TArray [TStr ".js"; TStr ".json"; TStr ".png"]);
               ("alias",
                TObject [("@models",
                          TStr (path_resolve dirname "src/models"));
                         ("@", TStr (path_resolve dirname "src"))])]);
     ("optimization", optimization_tree env);
     ("devServer", TObject [("port", TNum 4200); ("hot", TBool (isDev env))]);
     ("devtool", TStr (if isDev env then "source-map" else ""));
     ("plugins", plugins_tree);
     ("module", TObject [("rules", rules_tree)])].

End Trees.

(** ** Clients of the helpers: successive calls *)


(** Two calls of [cssLoaders] in a row, then [b.push(x)] on the chain the
    second call returned. *)
Definition cssLoaders_twice_then_push (env : option string) (e1 e2 : val)
           (x : string) : M val :=
  a <- cssLoaders env e1 ;;
  b <- cssLoaders env e2 ;;
  array_push b (VStr x) ;;;
  new_array [a; b].

(** ** Shapes of rules *)

Definition test_of (rule : tree) : option string :=
  match field "test" rule with
  | Some (TRegExp src) => Some src
  | _ => None
  end.

(** A rule webpack can read: a [test] pattern and exactly one of [use] and
    [loader]. *)
Definition rule_well_formed (rule : tree) : bool :=
  match test_of rule with
  | Some _ => xorb (has_field "use" rule) (has_field "loader" rule)
  | None => false
  end.

Definition excludes_node_modules (rule : tree) : bool :=
  match field "exclude" rule with
  | Some (TRegExp src) => String.eqb src "node_modules"
  | _ => false
  end.

(** The parts of the exported object that no branch on [isDev] reaches. *)
Definition environment_free_paths : list (list step) :=
  [[Key "context"]; [Key "mode"]; [Key "entry"]; [Key "output"; Key "path"];
   [Key "resolve"]; [Key "devServer"; Key "port"];
   [Key "plugins"; Idx 0; Arg 0; Key "template"];
   [Key "plugins"; Idx 1]; [Key "plugins"; Idx 2];
   [Key "module"; Key "rules"; Idx 3]; [Key "module"; Key "rules"; Idx 4];
   [Key "module"; Key "rules"; Idx 5]; [Key "module"; Key "rules"; Idx 6];
   [Key "module"; Key "rules"; Idx 7; Key "use"; Idx 0];
   [Key "module"; Key "rules"; Idx 8]; [Key "module"; Key "rules"; Idx 9]].

(** * Proofs *)

(** ** Lists as heaps: the part above a frame *)

Lemma nth_error_frame {A} (h l : list A) (k : nat) :
  nth_error (h ++ l) (length h + k) = nth_error l k.
Proof.
  induction h as [|x h IH]; simpl; auto.
Qed.

Lemma update_frame {A} (h l : list A) (k : nat) (x : A) :
  update (h ++ l) (length h + k) x = h ++ update l k x.
Proof.
  induction h as [|y h IH]; simpl; [reflexivity | now rewrite IH].
Qed.

Lemma mapM_map {A B C} (f : B -> option C) (g : A -> B) (l : list A) :
  mapM f (map g l) = mapM (fun x => f (g x)) l.
Proof.
  induction l as [|x l IH]; simpl; [reflexivity | now rewrite IH].
Qed.

Lemma mapM_ext {A B} (f g : A -> option B) (l : list A) :
  (forall x, f x = g x) -> mapM f l = mapM g l.
Proof.
  intros E. induction l as [|x l IH]; simpl; [reflexivity | now rewrite E, IH].
Qed.

Lemma mapM_weaken {A B} (f g : A -> option B) (l : list A) (ys : list B) :
  (forall x y, f x = Some y -> g x = Some y) ->
  mapM f l = Some ys -> mapM g l = Some ys.
Proof.
  intros W. revert ys. induction l as [|x l IH]; simpl; intros ys; [auto |].
  destruct (f x) as [y|] eqn:Fx; [| discriminate].
  destruct (mapM f l) as [ys'|]; [| discriminate].
  intros E. now rewrite (W _ _ Fx), (IH _ eq_refl).
Qed.

(** ** Reading back is stable under relocation and under more fuel *)

Lemma reify_shift (fuel : nat) (h l : heap) (v : val) :
  reify fuel (h ++ map (shift_cell (length h)) l) (shift (length h) v)
  = reify fuel l v.
Proof.
  revert v. induction fuel as [|fuel IH]; intros v; destruct v; simpl; auto.
  rewrite nth_error_frame, nth_error_map.
  destruct (nth_error l l0) as [[items|props|ctor args]|]; simpl; auto.
  - rewrite mapM_map. f_equal. apply mapM_ext. exact IH.
  - rewrite mapM_map. f_equal. apply mapM_ext.
    intros [k x]. unfold on_snd; simpl. now rewrite IH.
  - rewrite mapM_map. f_equal. apply mapM_ext. exact IH.
Qed.

Lemma reify_mono (fuel fuel' : nat) (h : heap) (v : val) (t : tree) :
  fuel <= fuel' -> reify fuel h v = Some t -> reify fuel' h v = Some t.
Proof.
  revert fuel' v t. induction fuel as [|fuel IH]; intros fuel' v t Hle.
  - destruct v; simpl; try discriminate; destruct fuel'; simpl; auto.
  - destruct fuel' as [|fuel']; [lia |].
    assert (Hle' : fuel <= fuel') by lia.
    destruct v; simpl; auto.
    destruct (nth_error h l) as [[items|props|ctor args]|]; auto.
    + destruct (mapM (reify fuel h) items) as [ts|] eqn:E; [| discriminate].
      intros R.
      rewrite (mapM_weaken _ (reify fuel' h) _ _
                 (fun x y => IH fuel' x y Hle') E).
      exact R.
    + destruct (mapM (on_snd (reify fuel h)) props) as [ts|] eqn:E;
        [| discriminate].
      intros R.
      rewrite (mapM_weaken (on_snd (reify fuel h)) (on_snd (reify fuel' h))
                 props ts); auto.
      intros [k x] [k' y]. unfold on_snd; simpl.
      destruct (reify fuel h x) as [y'|] eqn:Rx; [| discriminate].
      now rewrite (IH fuel' _ _ Hle' Rx).
    + destruct (mapM (reify fuel h) args) as [ts|] eqn:E; [| discriminate].
      intros R.
      rewrite (mapM_weaken _ (reify fuel' h) _ _
                 (fun x y => IH fuel' x y Hle') E).
      exact R.
Qed.

(** What a relocatable computation returns on the empty heap, it returns
    on every heap. *)
Lemma observe_relocatable (m : M val) (t : tree) :
  relocatable m -> observe m [] = Some t -> forall h, observe m h = Some t.
Proof.
  intros R O h. unfold observe in *. rewrite (R h).
  destruct (m []) as [[v l]|]; [| discriminate]. simpl.
  apply reify_mono with (fuel := length l).
  - rewrite length_app, length_map. lia.
  - rewrite reify_shift. exact O.
Qed.

(** A relocatable computation leaves the cells it found as they were. *)
Lemma relocatable_extends (m : M val) (h h' : heap) (v : val) :
  relocatable m -> m h = Some (v, h') -> exists l, h' = h ++ l.
Proof.
  intros R E. rewrite (R h) in E.
  destruct (m []) as [[v0 l0]|]; [| discriminate].
  injection E as _ E. eexists. symmetry. exact E.
Qed.

(** ** Symbolic execution above a frame

    The heap is kept in the form [h ++ l], with [h] the unknown older part
    and [l] the cells built so far; every reference the module creates has
    the form [VRef (length h + k)]. *)

Lemma step_ret {A B} (a : A) (k : A -> M B) (h : heap) :
  bind (ret a) k h = k a h.
Proof. reflexivity. Qed.

Lemma step_assoc {A B C} (m : M A) (f : A -> M B) (g : B -> M C) (h : heap) :
  bind (bind m f) g h = bind m (fun x => bind (f x) g) h.
Proof. unfold bind. destruct (m h) as [[a h']|]; reflexivity. Qed.

Lemma step_alloc {B} (c : cell) (k : val -> M B) (h l : heap) :
  bind (alloc c) k (h ++ l) = k (VRef (length h + length l)) (h ++ (l ++ [c])).
Proof. unfold bind, alloc. now rewrite length_app, <- app_assoc. Qed.

Lemma step_read {B} (k : cell -> M B) (h l : heap) (j : nat) (c : cell) :
  nth_error l j = Some c ->
  bind (read (VRef (length h + j))) k (h ++ l) = k c (h ++ l).
Proof. intros E. unfold bind, read. now rewrite nth_error_frame, E. Qed.

Lemma step_write {B} (c : cell) (k : unit -> M B) (h l : heap) (j : nat) :
  bind (write (VRef (length h + j)) c) k (h ++ l) = k tt (h ++ update l j c).
Proof. unfold bind, write. now rewrite update_frame. Qed.

Lemma bind_ret_r {A} (m : M A) (h : heap) : m h = bind m ret h.
Proof. unfold bind, ret. destruct (m h) as [[a h']|]; reflexivity. Qed.

Lemma relocatable_intro (m : M val) :
  (exists v l, m [] = Some (v, l) /\
               forall h, bind m ret (h ++ []) = Some (relocate h (v, l))) ->
  relocatable m.
Proof.
  intros (v & l & E0 & E) h. rewrite E0. simpl.
  rewrite <- (E h), <- bind_ret_r, app_nil_r. reflexivity.
Qed.

Ltac heap_step :=
  lazymatch goal with
  | |- bind (bind _ _) _ _ = _ => etransitivity; [apply step_assoc |]
  | |- bind (ret _) _ _ = _ => etransitivity; [apply step_ret |]
  | |- bind (alloc _) _ _ = _ => etransitivity; [apply step_alloc |]
  | |- bind (read _) _ _ = _ =>
      etransitivity; [apply step_read; reflexivity |]
  | |- bind (write _ _) _ _ = _ => etransitivity; [apply step_write |]
  end;
  cbn [length app update lookup_prop assign_prop String.eqb Ascii.eqb Bool.eqb
       truthy negb].

Ltac unfold_module :=
  unfold module_exports, plugins, jsLoaders, babelOptions, cssLoaders,
    optimization, filename, new_array, new_object, new_instance,
    get_prop, set_prop, array_push.

(** Run on the empty heap by computation, then replay above any frame. *)
Ltac relocate_by_execution :=
  apply relocatable_intro; eexists _, _; split;
  [ vm_compute; reflexivity
  | intros ?h; repeat heap_step; reflexivity ].

(** ** The two flags *)

Lemma flags_cases (env : option string) :
  (isDev env = true /\ isProd env = false) \/
  (isDev env = false /\ isProd env = true).
Proof. unfold isProd. destruct (isDev env); auto. Qed.

Lemma isDev_development (env : option string) :
  isDev env = true <-> env = Some "development".
Proof.
  unfold isDev, process_env_NODE_ENV. destruct env as [s|]; simpl.
  - rewrite String.eqb_eq. split; congruence.
  - split; discriminate.
Qed.

Lemma isDev_canonical (dev : bool) : isDev (canonical_env dev) = dev.
Proof. destruct dev; reflexivity. Qed.

Ltac flags env :=
  let HD := fresh "HD" in
  let HP := fresh "HP" in
  destruct (flags_cases env) as [[HD HP]|[HD HP]];
  unfold_module; rewrite ?HD, ?HP; cbv iota.

(** ** Every helper, and the module, is relocatable *)

Lemma optimization_relocatable (env : option string) :
  relocatable (optimization env).
Proof. flags env; relocate_by_execution. Qed.

Lemma jsLoaders_relocatable (env : option string) :
  relocatable (jsLoaders env).
Proof. flags env; relocate_by_execution. Qed.

Lemma plugins_relocatable (env : option string) (dirname : string)
      (path_resolve : string -> string -> string) :
  relocatable (plugins env dirname path_resolve).
Proof. flags env; relocate_by_execution. Qed.

Lemma babelOptions_relocatable (preset : val) :
  is_primitive preset = true -> relocatable (babelOptions preset).
Proof.
  intros P. unfold_module.
  destruct preset; try discriminate P;
    match goal with
    | |- context [truthy ?v] => destruct (truthy v)
    end; relocate_by_execution.
Qed.

Lemma cssLoaders_relocatable (env : option string) (extra : val) :
  is_primitive extra = true -> relocatable (cssLoaders env extra).
Proof.
  intros P. flags env;
    (destruct extra; try discriminate P;
     match goal with
     | |- context [truthy ?v] => destruct (truthy v)
     end; relocate_by_execution).
Qed.

Lemma module_exports_relocatable (env : option string) (dirname : string)
      (path_resolve : string -> string -> string) :
  relocatable (module_exports env dirname path_resolve).
Proof. flags env; relocate_by_execution. Qed.

(** Whatever the argument, also a reference, the two helpers that take one
    only add cells on top of the heap they find. *)
Ltac extend_by_execution h :=
  eexists _, _; rewrite bind_ret_r, <- (app_nil_r h) at 1;
  repeat heap_step; reflexivity.

Lemma babelOptions_extends (preset : val) (h : heap) :
  exists v l, babelOptions preset h = Some (v, h ++ l).
Proof.
  unfold_module. destruct (truthy preset); extend_by_execution h.
Qed.

Lemma cssLoaders_extends (env : option string) (extra : val) (h : heap) :
  exists v l, cssLoaders env extra h = Some (v, h ++ l).
Proof.
  flags env; destruct (truthy extra); extend_by_execution h.
Qed.

(** ** The environment reaches the module only through [isDev] *)

Ltac through_flag env :=
  let HD := fresh "HD" in
  let HP := fresh "HP" in
  destruct (flags_cases env) as [[HD HP]|[HD HP]];
  unfold_module; rewrite ?HD, ?HP; reflexivity.

Lemma filename_flag (env : option string) (ext : string) :
  filename env ext = filename (canonical_env (isDev env)) ext.
Proof. through_flag env. Qed.

Lemma optimization_flag (env : option string) :
  optimization env = optimization (canonical_env (isDev env)).
Proof. through_flag env. Qed.

Lemma cssLoaders_flag (env : option string) (extra : val) :
  cssLoaders env extra = cssLoaders (canonical_env (isDev env)) extra.
Proof. through_flag env. Qed.

Lemma jsLoaders_flag (env : option string) :
  jsLoaders env = jsLoaders (canonical_env (isDev env)).
Proof. through_flag env. Qed.

Lemma plugins_flag (env : option string) (dirname : string)
      (path_resolve : string -> string -> string) :
  plugins env dirname path_resolve
  = plugins (canonical_env (isDev env)) dirname path_resolve.
Proof. through_flag env. Qed.

Lemma module_exports_flag (env : option string) (dirname : string)
      (path_resolve : string -> string -> string) :
  module_exports env dirname path_resolve
  = module_exports (canonical_env (isDev env)) dirname path_resolve.
Proof. through_flag env. Qed.

(** ** What each helper, and the module, evaluates to *)

Ltac unfold_trees :=
  unfold config_tree, rules_tree, plugins_tree, base_plugins_tree,
    optimization_tree, js_loaders_tree, css_loaders_tree, filename, isProd.

Ltac observe_with lem :=
  apply observe_relocatable; [apply lem | vm_compute; reflexivity].

Ltac case_primitive v P :=
  destruct v; try discriminate P; unfold pushed;
  match goal with
  | |- context [truthy ?w] => destruct (truthy w)
  end.

Lemma babelOptions_observed (preset : val) (h : heap) :
  is_primitive preset = true ->
  observe (babelOptions preset) h = Some (babel_options_tree (pushed preset)).
Proof.
  intros P. apply observe_relocatable; [now apply babelOptions_relocatable |].
  unfold observe, babelOptions.
  case_primitive preset P; vm_compute; reflexivity.
Qed.

Lemma cssLoaders_observed (env : option string) (extra : val) (h : heap) :
  is_primitive extra = true ->
  observe (cssLoaders env extra) h = Some (css_loaders_tree env extra).
Proof.
  intros P. apply observe_relocatable; [now apply cssLoaders_relocatable |].
  unfold observe, cssLoaders, css_loaders_tree.
  destruct (isDev env); case_primitive extra P; vm_compute; reflexivity.
Qed.

Lemma jsLoaders_observed (env : option string) (h : heap) :
  observe (jsLoaders env) h = Some (js_loaders_tree env).
Proof.
  rewrite jsLoaders_flag. unfold js_loaders_tree.
  destruct (isDev env); observe_with jsLoaders_relocatable.
Qed.

Lemma optimization_observed (env : option string) (h : heap) :
  observe (optimization env) h = Some (optimization_tree env).
Proof.
  rewrite optimization_flag. unfold optimization_tree, isProd.
  destruct (isDev env); observe_with optimization_relocatable.
Qed.

Lemma plugins_observed (env : option string) (dirname : string)
      (path_resolve : string -> string -> string) (h : heap) :
  observe (plugins env dirname path_resolve) h
  = Some (plugins_tree env dirname path_resolve).
Proof.
  rewrite plugins_flag. unfold_trees.
  destruct (isDev env); observe_with plugins_relocatable.
Qed.

Lemma module_exports_observed (env : option string) (dirname : string)
      (path_resolve : string -> string -> string) (h : heap) :
  observe (module_exports env dirname path_resolve) h
  = Some (config_tree env dirname path_resolve).
Proof.
  rewrite module_exports_flag. unfold_trees.
  destruct (isDev env); observe_with module_exports_relocatable.
Qed.

(** * The claims *)

(** C1.  [filename(ext)] is ["[name].[hash]." ++ ext] in production mode
    and ["[name]." ++ ext] in development mode.  The production template
    always contains the placeholder [[hash]]; the development template
    contains it only if [ext] itself does, so for the two extensions the
    module passes, [js] and [css], it does not.  The exported
    [output.filename] is [filename('js')]. *)
Theorem filename_hash_by_mode (env : option string) (ext : string) :
  (isProd env = true ->
     filename env ext = ("[name].[hash]." ++ ext)%string /\
     includes "[hash]" (filename env ext) = true) /\
  (isDev env = true ->
     filename env ext = ("[name]." ++ ext)%string /\
     includes "[hash]" (filename env ext) = includes "[hash]" ext /\
     includes "[hash]" (filename env "js") = false /\
     includes "[hash]" (filename env "css") = false) /\
  (forall dirname path_resolve h,
      exists t,
        observe (module_exports env dirname path_resolve) h = Some t /\
        select [Key "output"; Key "filename"] t
        = Some (TStr (filename env "js"))).
Proof.
  split; [| split].
  - unfold filename, isProd. destruct (isDev env); intros H;
      try discriminate H; repeat split; reflexivity.
  - unfold filename. destruct (isDev env); intros H;
      try discriminate H; repeat split; reflexivity.
  - intros d pr h. eexists. split; [apply module_exports_observed |].
    reflexivity.
Qed.

Lemma filename_hash_by_mode_witness :
  (isProd (Some "production") = true /\
   filename (Some "production") "js" = "[name].[hash].js") /\
  (isDev (Some "development") = true /\
   filename (Some "development") "js" = "[name].js").
Proof.
  split; (split; [reflexivity |]).
  - exact (proj1 (proj1 (filename_hash_by_mode (Some "production") "js")
                    eq_refl)).
  - exact (proj1 (proj1 (proj2 (filename_hash_by_mode
                                  (Some "development") "js")) eq_refl)).
Defined.

(** C2.  [optimization()] returns an object whose [splitChunks.chunks] is
    ['all'] in both modes; in production it carries a two-element
    [minimizer] list (CSS minimizer, then JS minimizer), in development it
    has no [minimizer] property.  The exported [optimization] is that
    object. *)
Theorem optimization_minimizer_by_mode (env : option string) (h : heap) :
  exists t,
    observe (optimization env) h = Some t /\
    select [Key "splitChunks"; Key "chunks"] t = Some (TStr "all") /\
    (isProd env = true ->
       field "minimizer" t
       = Some (TArray [TNew "OptimizeCssAssetWebpackPlugin" [];
                       TNew "TerserWebpackPlugin" []])) /\
    (isDev env = true -> has_field "minimizer" t = false) /\
    (forall dirname path_resolve h',
        exists c, observe (module_exports env dirname path_resolve) h' = Some c
                  /\ field "optimization" c = Some t).
Proof.
  exists (optimization_tree env). split; [apply optimization_observed |].
  split; [reflexivity |]. unfold optimization_tree, isProd.
  repeat split.
  - intros H. now rewrite H.
  - intros H. now rewrite H.
  - intros d pr h'. exists (config_tree env d pr).
    split; [apply module_exports_observed | reflexivity].
Qed.

Lemma optimization_minimizer_by_mode_witness :
  exists t,
    observe (optimization None) [] = Some t /\
    field "minimizer" t
    = Some (TArray [TNew "OptimizeCssAssetWebpackPlugin" [];
                    TNew "TerserWebpackPlugin" []]).
Proof.
  destruct (optimization_minimizer_by_mode None []) as (t & O & _ & P & _).
  exists t. split; [exact O | apply P; reflexivity].
Defined.

(** C3.  [plugins()] returns the four base plugins in the order HTML
    generation, output cleaning, file copying, style-sheet extraction; a
    fifth element exists exactly in production, and it is the bundle
    analyzer. *)
Theorem plugins_base_and_analyzer (env : option string) (dirname : string)
        (path_resolve : string -> string -> string) (h : heap) :
  exists items,
    observe (plugins env dirname path_resolve) h = Some (TArray items) /\
    map ctor_of (firstn 4 items)
    = [Some "HTMLWebpackPlugin"; Some "CleanWebpackPlugin";
       Some "CopyWebpackPlugin"; Some "MiniCssExtractPlugin"] /\
    length items = (if isProd env then 5 else 4) /\
    (nth_error items 4 = Some (TNew "BundleAnalyzerPlugin" [])
     <-> isProd env = true) /\
    (existsb (fun p => match ctor_of p with
                       | Some c => String.eqb c "BundleAnalyzerPlugin"
                       | None => false
                       end) items = isProd env).
Proof.
  eexists. split; [apply plugins_observed |].
  unfold base_plugins_tree. destruct (isProd env); simpl; repeat split;
    auto; discriminate.
Qed.

(** C4.  Two environments with the same [isDev] give the same exported
    configuration, on any heaps.  In that configuration [devtool] is
    ['source-map'] when [isDev] holds and the empty (falsy) string
    otherwise, [devServer.hot] is [isDev], the HTML plugin's
    [minify.collapseWhitespace] is [isProd], and the [minimizer] list and
    the fifth plugin (the bundle analyzer) exist exactly when [isProd]
    holds. *)
Theorem environment_acts_through_isDev
        (env1 env2 : option string) (dirname : string)
        (path_resolve : string -> string -> string) (h1 h2 : heap) :
  isDev env1 = isDev env2 ->
  exists t,
    observe (module_exports env1 dirname path_resolve) h1 = Some t /\
    observe (module_exports env2 dirname path_resolve) h2 = Some t /\
    select [Key "devtool"] t
    = Some (TStr (if isDev env1 then "source-map" else "")) /\
    select [Key "devServer"; Key "hot"] t = Some (TBool (isDev env1)) /\
    select [Key "plugins"; Idx 0; Arg 0; Key "minify";
            Key "collapseWhitespace"] t = Some (TBool (isProd env1)) /\
    select [Key "optimization"; Key "minimizer"] t
    = (if isProd env1 then Some minimizer_tree else None) /\
    select [Key "plugins"; Idx 4] t
    = (if isProd env1 then Some (TNew "BundleAnalyzerPlugin" []) else None).
Proof.
  intros E. exists (config_tree env1 dirname path_resolve).
  split; [apply module_exports_observed |].
  split.
  - rewrite module_exports_flag, <- E, <- module_exports_flag.
    apply module_exports_observed.
  - clear E. unfold_trees. destruct (isDev env1); repeat split; reflexivity.
Qed.

Lemma environment_acts_through_isDev_witness :
  isDev (Some "production") = isDev None /\
  exists t,
    observe (module_exports (Some "production") "/app" String.append) []
    = Some t /\
    observe (module_exports None "/app" String.append) [CArray []] = Some t.
Proof.
  split; [reflexivity |].
  destruct (environment_acts_through_isDev
              (Some "production") None "/app" String.append [] [CArray []]
              eq_refl) as (t & A & B & _).
  exists t. split; assumption.
Defined.

(** C5, as stated: every value of [entry] is a list.  It fails at
    [analytics], whose value is the string ['./analytics.ts']. *)
Lemma entry_analytics_is_not_a_list :
  exists t v,
    observe (module_exports (Some "production") "/app" String.append) []
    = Some t /\
    select [Key "entry"; Key "analytics"] t = Some v /\
    is_array v = false.
Proof.
  eexists _, _. split; [vm_compute; reflexivity |].
  split; reflexivity.
Qed.

(** C5, amended.  [entry] has the two keys [main] and [analytics]; [main]
    maps to the list ['@babel/polyfill', './index.jsx'] and [analytics] to
    the single path ['./analytics.ts'], so every value of [entry] is a
    list of source files or one source-file path. *)
Theorem entry_values_are_lists_or_paths
        (env : option string) (dirname : string)
        (path_resolve : string -> string -> string) (h : heap) :
  exists t e,
    observe (module_exports env dirname path_resolve) h = Some t /\
    field "entry" t = Some e /\
    field "main" e
    = Some (TArray [TStr "@babel/polyfill"; TStr "./index.jsx"]) /\
    field "analytics" e = Some (TStr "./analytics.ts") /\
    forall k v, field k e = Some v ->
                is_source_list v = true \/ is_string v = true.
Proof.
  eexists _, _. split; [apply module_exports_observed |].
  split; [reflexivity |]. split; [reflexivity |]. split; [reflexivity |].
  intros k v. simpl.
  destruct (String.eqb k "main"); [intros [= <-]; now left |].
  destruct (String.eqb k "analytics"); [intros [= <-]; now right |].
  discriminate.
Qed.

(** C6.  The rules for [.js], [.ts] and [.jsx] (elements 7, 8, 9 of
    [module.rules]) all run [babel-loader] with options whose presets
    start with ['@babel/preset-env'] and whose plugins are the
    class-properties plugin; the [.ts] rule appends
    ['@babel/preset-typescript'], the [.jsx] rule ['@babel/preset-react'],
    the [.js] rule nothing. *)
Theorem script_rules_share_babel_step
        (env : option string) (dirname : string)
        (path_resolve : string -> string -> string) (h : heap) :
  exists t js ts jsx,
    observe (module_exports env dirname path_resolve) h = Some t /\
    select [Key "module"; Key "rules"; Idx 7] t = Some js /\
    select [Key "module"; Key "rules"; Idx 8] t = Some ts /\
    select [Key "module"; Key "rules"; Idx 9] t = Some jsx /\
    field "test" js = Some (TRegExp "\.js$") /\
    field "test" ts = Some (TRegExp "\.ts$") /\
    field "test" jsx = Some (TRegExp "\.jsx$") /\
    select [Key "use"; Idx 0] js = Some (babel_loader_tree []) /\
    field "loader" ts
    = Some (babel_loader_tree [TStr "@babel/preset-typescript"]) /\
    field "loader" jsx
    = Some (babel_loader_tree [TStr "@babel/preset-react"]) /\
    forall extra,
      babel_loader_tree extra
      = TObject
          [("loader", TStr "babel-loader");
           ("options",
            TObject
              [("presets", TArray (TStr "@babel/preset-env" :: extra));
               ("plugins",
                TArray [TStr "@babel/plugin-proposal-class-properties"])])].
Proof.
  eexists _, _, _, _. split; [apply module_exports_observed |].
  unfold js_loaders_tree.
  repeat (split; [reflexivity |]). reflexivity.
Qed.

(** C7.  [devServer] is [{port: 4200, hot: isDev}] whatever the
    environment. *)
Theorem devServer_port_and_hot (env : option string) (dirname : string)
        (path_resolve : string -> string -> string) (h : heap) :
  exists t,
    observe (module_exports env dirname path_resolve) h = Some t /\
    select [Key "devServer"] t
    = Some (TObject [("port", TNum 4200); ("hot", TBool (isDev env))]) /\
    (select [Key "devServer"; Key "hot"] t = Some (TBool true)
     <-> isDev env = true).
Proof.
  eexists. split; [apply module_exports_observed |].
  split; [reflexivity |]. simpl. split; congruence.
Qed.

(** C8.  Each helper is a function of its argument and of [isDev] only:
    for two environments with the same flag and any two heaps it returns
    the same result, and it is relocatable, that is, it neither reads nor
    writes a cell that existed before the call.  The argument is a
    primitive value, as at every call in the module; for an argument that
    is a reference the two helpers that take one still only add cells to
    the heap. *)
Theorem helpers_are_pure
        (env1 env2 : option string) (arg : val) (ext : string)
        (h1 h2 : heap) :
  isDev env1 = isDev env2 ->
  is_primitive arg = true ->
  filename env1 ext = filename env2 ext /\
  (exists t, observe (cssLoaders env1 arg) h1 = Some t /\
             observe (cssLoaders env2 arg) h2 = Some t) /\
  (exists t, observe (babelOptions arg) h1 = Some t /\
             observe (babelOptions arg) h2 = Some t) /\
  (exists t, observe (jsLoaders env1) h1 = Some t /\
             observe (jsLoaders env2) h2 = Some t) /\
  (exists t, observe (optimization env1) h1 = Some t /\
             observe (optimization env2) h2 = Some t) /\
  relocatable (cssLoaders env1 arg) /\
  relocatable (babelOptions arg) /\
  relocatable (jsLoaders env1) /\
  relocatable (optimization env1) /\
  (forall a h, exists v l, cssLoaders env1 a h = Some (v, h ++ l)) /\
  (forall a h, exists v l, babelOptions a h = Some (v, h ++ l)).
Proof.
  intros E P.
  split; [now rewrite filename_flag, E, <- filename_flag |].
  split.
  { exists (css_loaders_tree env1 arg).
    split; [now apply cssLoaders_observed |].
    rewrite cssLoaders_observed by exact P.
    unfold css_loaders_tree. now rewrite E. }
  split.
  { exists (babel_options_tree (pushed arg)).
    split; now apply babelOptions_observed. }
  split.
  { exists (js_loaders_tree env1). split; [apply jsLoaders_observed |].
    rewrite jsLoaders_observed. unfold js_loaders_tree. now rewrite E. }
  split.
  { exists (optimization_tree env1). split; [apply optimization_observed |].
    rewrite optimization_observed. unfold optimization_tree, isProd.
    now rewrite E. }
  split; [now apply cssLoaders_relocatable |].
  split; [now apply babelOptions_relocatable |].
  split; [apply jsLoaders_relocatable |].
  split; [apply optimization_relocatable |].
  split; [apply cssLoaders_extends | apply babelOptions_extends].
Qed.

Lemma helpers_are_pure_witness :
  (isDev (Some "production") = isDev (Some "") /\
   is_primitive (VStr "less-loader") = true) /\
  exists t,
    observe (cssLoaders (Some "production") (VStr "less-loader")) [] = Some t /\
    observe (cssLoaders (Some "") (VStr "less-loader")) [CObject []] = Some t.
Proof.
  split; [split; reflexivity |].
  exact (proj1 (proj2 (helpers_are_pure
                         (Some "production") (Some "") (VStr "less-loader")
                         "css" [] [CObject []] eq_refl eq_refl))).
Defined.

(** C9.  [isProd] is the negation of [isDev], so exactly one of them
    holds; [isDev] holds only for the exact string ['development'], and
    every other value of [NODE_ENV], unset included, gives the
    configuration that ['production'] gives: hashed file names and a
    minimizer list. *)
Theorem not_development_means_production (env : option string) :
  isProd env = negb (isDev env) /\
  xorb (isDev env) (isProd env) = true /\
  (isDev env = true <-> env = Some "development") /\
  (env <> Some "development" ->
   isProd env = true /\
   forall dirname path_resolve h h',
   exists t,
     observe (module_exports env dirname path_resolve) h = Some t /\
     observe (module_exports (Some "production") dirname path_resolve) h'
     = Some t /\
     select [Key "output"; Key "filename"] t = Some (TStr "[name].[hash].js") /\
     select [Key "optimization"; Key "minimizer"] t = Some minimizer_tree).
Proof.
  split; [reflexivity |].
  split; [unfold isProd; now destruct (isDev env) |].
  split; [apply isDev_development |].
  intros N.
  assert (D : isDev env = false).
  { destruct (isDev env) eqn:D; [| reflexivity].
    now apply isDev_development in D. }
  split; [unfold isProd; now rewrite D |].
  intros d pr h h'. exists (config_tree env d pr).
  split; [apply module_exports_observed |].
  rewrite module_exports_observed. unfold_trees. rewrite D.
  repeat split; reflexivity.
Qed.

Lemma not_development_means_production_witness :
  (None <> Some "development" /\ isProd None = true) /\
  (Some "" <> Some "development" /\ isProd (Some "") = true).
Proof.
  split; (split; [discriminate |]).
  - exact (proj1 (proj2 (proj2 (proj2 (not_development_means_production None)))
                    ltac:(discriminate))).
  - exact (proj1 (proj2 (proj2 (proj2
                                  (not_development_means_production (Some ""))))
                    ltac:(discriminate))).
Defined.

(** C10.  The exported [mode] is the string ['development'] for every
    value of [NODE_ENV]. *)
Theorem mode_is_always_development (env : option string) (dirname : string)
        (path_resolve : string -> string -> string) (h : heap) :
  exists t,
    observe (module_exports env dirname path_resolve) h = Some t /\
    select [Key "mode"] t = Some (TStr "development").
Proof.
  eexists. split; [apply module_exports_observed | reflexivity].
Qed.

(** * Further properties *)

(** ** Successive calls of one helper *)

Lemma shift_primitive (n : nat) (v : val) :
  is_primitive v = true -> shift n v = v.
Proof. destruct v; simpl; [reflexivity .. | discriminate]. Qed.

Ltac relocate_with_arguments :=
  apply relocatable_intro; eexists _, _; split;
  [ vm_compute; reflexivity
  | intros ?h; repeat heap_step;
    unfold relocate; cbn [map shift_cell shift_prop fst snd];
    repeat match goal with
           | P : is_primitive ?v = true |- _ => rewrite (shift_primitive _ v P)
           end;
    reflexivity ].


Lemma cssLoaders_twice_relocatable (env : option string) (e1 e2 : val)
      (x : string) :
  is_primitive e1 = true -> is_primitive e2 = true ->
  relocatable (cssLoaders_twice_then_push env e1 e2 x).
Proof.
  intros P1 P2. unfold cssLoaders_twice_then_push.
  flags env; destruct (truthy e1), (truthy e2); relocate_with_arguments.
Qed.

Ltac read_back :=
  repeat match goal with
         | P : is_primitive ?v = true |- _ =>
             destruct v; try discriminate P; clear P
         end;
  unfold pushed;
  repeat match goal with
         | |- context [truthy ?w] => destruct (truthy w)
         end;
  vm_compute; reflexivity.


Lemma cssLoaders_twice_observed (env : option string) (e1 e2 : val)
      (x : string) (h : heap) :
  is_primitive e1 = true -> is_primitive e2 = true ->
  observe (cssLoaders_twice_then_push env e1 e2 x) h
  = Some (TArray
            [css_loaders_tree env e1;
             match css_loaders_tree env e2 with
             | TArray items => TArray (items ++ [TStr x])
             | t => t
             end]).
Proof.
  intros P1 P2.
  apply observe_relocatable; [now apply cssLoaders_twice_relocatable |].
  unfold observe, cssLoaders_twice_then_push, cssLoaders, css_loaders_tree.
  destruct (isDev env); read_back.
Qed.

(** ** Properties *)

(** X1.  [cssLoaders(extra)] returns the extracting loader (with
    [hmr = isDev]) and ['css-loader'], followed by [extra] when it is
    truthy.  A falsy [extra], the empty string included, is dropped: the
    chain is then the one [cssLoaders()] returns. *)
Theorem cssLoaders_appends_truthy_extra
        (env : option string) (extra : val) (h : heap) :
  is_primitive extra = true ->
  exists items,
    observe (cssLoaders env extra) h = Some (TArray items) /\
    firstn 2 items
    = [TObject [("loader", TExtern "MiniCssExtractPlugin.loader");
                ("options", TObject [("hmr", TBool (isDev env));
                                     ("reloadAll", TBool true)])];
       TStr "css-loader"] /\
    (truthy extra = true ->
     items = firstn 2 items ++ [tree_of_primitive extra]) /\
    (truthy extra = false ->
     length items = 2 /\
     observe (cssLoaders env extra) h = observe (cssLoaders env VUndefined) h).
Proof.
  intros P. eexists. split; [now apply cssLoaders_observed |].
  split; [reflexivity |]. unfold pushed. split; intros T; rewrite T.
  - reflexivity.
  - split; [reflexivity |].
    rewrite !cssLoaders_observed by (assumption || reflexivity).
    unfold css_loaders_tree, pushed. now rewrite T.
Qed.

Lemma cssLoaders_appends_truthy_extra_witness :
  is_primitive (VStr "") = true /\
  observe (cssLoaders (Some "development") (VStr "")) []
  = observe (cssLoaders (Some "development") VUndefined) [].
Proof.
  split; [reflexivity |].
  destruct (cssLoaders_appends_truthy_extra
              (Some "development") (VStr "") [] eq_refl)
    as (items & _ & _ & _ & F).
  exact (proj2 (F eq_refl)).
Defined.

(** X2.  [babelOptions(preset)] always lists ['@babel/preset-env'] first
    and the class-properties plugin as its only plugin; a truthy [preset]
    is the second and last preset, a falsy one (none given, or the empty
    string) leaves ['@babel/preset-env'] alone. *)
Theorem babelOptions_appends_truthy_preset (preset : val) (h : heap) :
  is_primitive preset = true ->
  exists t presets,
    observe (babelOptions preset) h = Some t /\
    field "presets" t = Some (TArray presets) /\
    nth_error presets 0 = Some (TStr "@babel/preset-env") /\
    field "plugins" t
    = Some (TArray [TStr "@babel/plugin-proposal-class-properties"]) /\
    (truthy preset = true ->
     presets = [TStr "@babel/preset-env"; tree_of_primitive preset]) /\
    (truthy preset = false ->
     presets = [TStr "@babel/preset-env"] /\
     observe (babelOptions preset) h = observe (babelOptions VUndefined) h).
Proof.
  intros P. eexists _, _. split; [now apply babelOptions_observed |].
  split; [reflexivity |]. split; [reflexivity |]. split; [reflexivity |].
  unfold pushed. split; intros T; rewrite T.
  - reflexivity.
  - split; [reflexivity |].
    rewrite !babelOptions_observed by (assumption || reflexivity).
    unfold pushed. now rewrite T.
Qed.

Lemma babelOptions_appends_truthy_preset_witness :
  is_primitive (VStr "@babel/preset-react") = true /\
  exists t,
    observe (babelOptions (VStr "@babel/preset-react")) [] = Some t /\
    field "presets" t
    = Some (TArray [TStr "@babel/preset-env"; TStr "@babel/preset-react"]).
Proof.
  split; [reflexivity |].
  destruct (babelOptions_appends_truthy_preset
              (VStr "@babel/preset-react") [] eq_refl)
    as (t & presets & O & F & _ & _ & T & _).
  exists t. split; [exact O |]. rewrite F, (T eq_refl). reflexivity.
Defined.



(** X4.  Two calls of [cssLoaders] share nothing: after a second call and
    a push onto the chain it returned, the first chain is still what a
    single call returns, and the second chain has grown by the pushed
    loader only. *)
Theorem cssLoaders_calls_share_nothing
        (env : option string) (e1 e2 : val) (x : string) (h h1 h2 : heap) :
  is_primitive e1 = true -> is_primitive e2 = true ->
  exists a items,
    observe (cssLoaders_twice_then_push env e1 e2 x) h
    = Some (TArray [a; TArray (items ++ [TStr x])]) /\
    observe (cssLoaders env e1) h1 = Some a /\
    observe (cssLoaders env e2) h2 = Some (TArray items).
Proof.
  intros P1 P2. eexists _, _.
  split; [now apply cssLoaders_twice_observed |].
  split; now apply cssLoaders_observed.
Qed.

Lemma cssLoaders_calls_share_nothing_witness :
  (is_primitive VUndefined = true /\
   is_primitive (VStr "less-loader") = true) /\
  exists a items,
    observe (cssLoaders_twice_then_push
               None VUndefined (VStr "less-loader") "postcss-loader") []
    = Some (TArray [a; TArray (items ++ [TStr "postcss-loader"])]) /\
    observe (cssLoaders None VUndefined) [] = Some a.
Proof.
  split; [split; reflexivity |].
  destruct (cssLoaders_calls_share_nothing
              None VUndefined (VStr "less-loader") "postcss-loader" [] [] []
              eq_refl eq_refl) as (a & items & A & B & _).
  exists a, items. split; assumption.
Defined.

(** X5.  The [.js] chain starts with the babel loader in both modes and
    has ['eslint-loader'] as a second, last element exactly in
    development; the exported [.js] rule uses that chain. *)
Theorem jsLoaders_lints_in_development_only
        (env : option string) (dirname : string)
        (path_resolve : string -> string -> string) (h h' : heap) :
  exists items,
    observe (jsLoaders env) h = Some (TArray items) /\
    nth_error items 0 = Some (babel_loader_tree []) /\
    (nth_error items 1 = Some (TStr "eslint-loader") <-> isDev env = true) /\
    length items = (if isDev env then 2 else 1) /\
    exists t,
      observe (module_exports env dirname path_resolve) h' = Some t /\
      select [Key "module"; Key "rules"; Idx 7; Key "use"] t
      = Some (TArray items).
Proof.
  eexists. split; [apply jsLoaders_observed |].
  split; [reflexivity |]. split; [| split].
  - destruct (isDev env); simpl; split; congruence.
  - now destruct (isDev env).
  - eexists. split; [apply module_exports_observed | reflexivity].
Qed.

(** X6.  The three style rules ([.css], [.less], [.sass]/[.scss]) use the
    same two leading loaders, the extracting loader with [hmr = isDev] and
    then ['css-loader']; the [.css] chain ends there, the other two end
    with their preprocessor, ['less-loader'] and ['sass-loader']. *)
Theorem style_rules_share_css_chain
        (env : option string) (dirname : string)
        (path_resolve : string -> string -> string) (h : heap) :
  exists t base,
    observe (module_exports env dirname path_resolve) h = Some t /\
    base = [TObject [("loader", TExtern "MiniCssExtractPlugin.loader");
                     ("options", TObject [("hmr", TBool (isDev env));
                                          ("reloadAll", TBool true)])];
            TStr "css-loader"] /\
    select [Key "module"; Key "rules"; Idx 0] t
    = Some (TObject [("test", TRegExp "\.css$"); ("use", TArray base)]) /\
    select [Key "module"; Key "rules"; Idx 1] t
    = Some (TObject [("test", TRegExp "\.less$");
                     ("use", TArray (base ++ [TStr "less-loader"]))]) /\
    select [Key "module"; Key "rules"; Idx 2] t
    = Some (TObject [("test", TRegExp "\.s[ac]ss$");
                     ("use", TArray (base ++ [TStr "sass-loader"]))]).
Proof.
  eexists _, _. split; [apply module_exports_observed |].
  split; [reflexivity |]. repeat split; reflexivity.
Qed.

(** X7.  In both modes [module.rules] has the same ten rules in the same
    order of patterns; every rule has a [test] pattern and exactly one of
    [use] and [loader]; the three script rules, and only they, exclude
    [node_modules]. *)
Theorem rules_are_well_formed
        (env : option string) (dirname : string)
        (path_resolve : string -> string -> string) (h : heap) :
  exists t rules,
    observe (module_exports env dirname path_resolve) h = Some t /\
    select [Key "module"; Key "rules"] t = Some (TArray rules) /\
    map test_of rules
    = map Some ["\.css$"; "\.less$"; "\.s[ac]ss$"; "\.(png|jpg|svg|gif)$";
                "\.(ttf|woff|woff2|eot)$"; "\.xml$"; "\.csv$"; "\.js$";
                "\.ts$"; "\.jsx$"] /\
    forallb rule_well_formed rules = true /\
    map excludes_node_modules rules
    = [false; false; false; false; false; false; false; true; true; true].
Proof.
  eexists _, _. split; [apply module_exports_observed |].
  split; [reflexivity |]. repeat split; reflexivity.
Qed.

(** X8.  Whatever [__dirname] and [path.resolve] are, the favicon is
    copied from under the source directory into the output directory
    ([to] is [output.path]), the alias ['@'] is the context directory, and
    ['@models'] is resolved from the same [__dirname]. *)
Theorem paths_are_consistent
        (env : option string) (dirname : string)
        (path_resolve : string -> string -> string) (h : heap) :
  exists t out ctx,
    observe (module_exports env dirname path_resolve) h = Some t /\
    out = TStr (path_resolve dirname "dist") /\
    ctx = TStr (path_resolve dirname "src") /\
    select [Key "output"; Key "path"] t = Some out /\
    select [Key "plugins"; Idx 2; Arg 0; Idx 0; Key "to"] t = Some out /\
    select [Key "plugins"; Idx 2; Arg 0; Idx 0; Key "from"] t
    = Some (TStr (path_resolve dirname "src/favicon.ico")) /\
    select [Key "context"] t = Some ctx /\
    select [Key "resolve"; Key "alias"; Key "@"] t = Some ctx /\
    select [Key "resolve"; Key "alias"; Key "@models"] t
    = Some (TStr (path_resolve dirname "src/models")).
Proof.
  eexists _, _, _. split; [apply module_exports_observed |].
  repeat split; reflexivity.
Qed.

(** X9.  For any two environments, also with different flags, the
    exported object agrees on [context], [mode], [entry], [output.path],
    [resolve], [devServer.port], the HTML template, the cleaning and
    copying plugins, the asset, [.ts] and [.jsx] rules and the babel
    loader of the [.js] rule: the environment never reaches them. *)
Theorem environment_never_reaches
        (env1 env2 : option string) (dirname : string)
        (path_resolve : string -> string -> string) (h1 h2 : heap) :
  exists t1 t2,
    observe (module_exports env1 dirname path_resolve) h1 = Some t1 /\
    observe (module_exports env2 dirname path_resolve) h2 = Some t2 /\
    Forall (fun p => exists x, select p t1 = Some x /\ select p t2 = Some x)
           environment_free_paths.
Proof.
  eexists _, _. split; [apply module_exports_observed |].
  split; [apply module_exports_observed |].
  unfold environment_free_paths.
  repeat (constructor; [eexists; split; reflexivity |]). constructor.
Qed.

(** X10.  Two environments give the same exported configuration exactly
    when they have the same [isDev]: a different flag always shows. *)
Theorem same_configuration_iff_same_flag
        (env1 env2 : option string) (dirname : string)
        (path_resolve : string -> string -> string) (h1 h2 : heap) :
  observe (module_exports env1 dirname path_resolve) h1
  = observe (module_exports env2 dirname path_resolve) h2
  <-> isDev env1 = isDev env2.
Proof.
  rewrite !module_exports_observed. split.
  - unfold_trees. destruct (isDev env1), (isDev env2); intros E;
      try reflexivity; discriminate E.
  - intros E. unfold_trees. now rewrite E.
Qed.

(** X11.  In one environment [filename] sends different extensions to
    different templates, and for one extension two environments get the
    same template exactly when they have the same [isDev]. *)
Theorem filename_is_injective
        (env env' : option string) (ext ext' : string) :
  (filename env ext = filename env ext' <-> ext = ext') /\
  (filename env ext = filename env' ext <-> isDev env = isDev env').
Proof.
  unfold filename. split; split.
  - destruct (isDev env); simpl; intros E; now injection E.
  - now intros ->.
  - destruct (isDev env), (isDev env'); simpl; intros E; try reflexivity;
      injection E as E; apply (f_equal String.length) in E; simpl in E; lia.
  - now intros ->.
Qed.


(** X13.  Loading the module raises no [TypeError], for any environment
    and on any heap: it returns a reference to a fresh object and leaves
    every cell it found as it was. *)
Theorem module_exports_only_allocates
        (env : option string) (dirname : string)
        (path_resolve : string -> string -> string) (h : heap) :
  exists k l props,
    module_exports env dirname path_resolve h
    = Some (VRef (length h + k), h ++ l) /\
    nth_error l k = Some (CObject props) /\
    map fst props
    = ["context"; "mode"; "entry"; "output"; "resolve"; "optimization";
       "devServer"; "devtool"; "plugins"; "module"].
Proof.
  rewrite (module_exports_relocatable env dirname path_resolve h).
  rewrite module_exports_flag.
  destruct (isDev env);
    match goal with
    | |- context [module_exports ?e ?d ?p []] =>
        let r := eval vm_compute in (module_exports e d p []) in
        change (module_exports e d p []) with r
    end;
    unfold relocate; cbn [option_map fst snd shift];
    eexists _, _, _; (split; [reflexivity |]);
    rewrite nth_error_map;
    cbn [nth_error option_map shift_cell map shift_prop fst snd];
    split; reflexivity.
Qed.
